(** * ShipModule: the per-ship display record of the ESP overlay

  A shallow embedding of [Hack/Modules/ship.py].  A [ShipModule] object is
  a record that is passed through [update] and [_delete]; the three pyglet
  objects it owns are records of the attributes the module reads and
  writes, together with a count of the [delete()] calls they received.

  The module imports [calculate_distance] and [object_to_screen] from
  [helpers], the table [ships] from [mapping], the memory accessors of
  [DisplayObject] and [Ship], and the registry [Crew.tracker].  None of
  them is defined in [ship.py]: the pure helpers and the table are the
  fields of the class [Helpers], and everything that is read from the
  game's memory or mutated by other modules is a field of [World].  The
  accessors are total: a read that raises is not followed here. *)

From Stdlib Require Import ZArith String Ascii List Bool Lia.
From Stdlib Require Import Floats.PrimFloat Floats.SpecFloat Floats.FloatOps.
From Stdlib Require Import DecimalString.
Import ListNotations.

Local Open Scope string_scope.
Local Open Scope Z_scope.

(* 1.45 is read as the nearest binary64 value, as Python reads it. *)
Set Warnings "-inexact-float".

(** ** Python values *)

Module Py.

(** A Python number: an [int] (unbounded) or a [float] (binary64). *)
Inductive num : Type :=
| Int (z : Z)
| Float (f : float).

(** [float(z)]: the nearest binary64 value, ties to even.  Python raises
    [OverflowError] from 2^1024 on, where this conversion gives an
    infinity; the integers converted in this module are the constants of
    the source and pixel coordinates. *)
Definition float_of_Z (z : Z) : float :=
  SF2Prim (binary_normalize prec emax z 0 false).

Definition to_float (a : num) : float :=
  match a with
  | Int z => float_of_Z z
  | Float f => f
  end.

(** [a - b], [a + b], [a * b]: integer arithmetic on two ints, binary64
    arithmetic as soon as one operand is a float. *)
Definition sub (a b : num) : num :=
  match a, b with
  | Int x, Int y => Int (x - y)
  | _, _ => Float (PrimFloat.sub (to_float a) (to_float b))
  end.

Definition add (a b : num) : num :=
  match a, b with
  | Int x, Int y => Int (x + y)
  | _, _ => Float (PrimFloat.add (to_float a) (to_float b))
  end.

Definition mul (a b : num) : num :=
  match a, b with
  | Int x, Int y => Int (x * y)
  | _, _ => Float (PrimFloat.mul (to_float a) (to_float b))
  end.

(** [a / b], true division: always a float.  The source only divides the
    constant 25 by the constant 2. *)
Definition truediv (a b : num) : num :=
  Float (PrimFloat.div (to_float a) (to_float b)).

(** [a < b] and [a > b].  Two ints are compared as integers; a comparison
    with a float is the binary64 one (false on NaN), which is Python's
    exact comparison whenever the int operand is a binary64 value, as the
    literal 1750 is. *)
Definition lt (a b : num) : bool :=
  match a, b with
  | Int x, Int y => x <? y
  | _, _ => PrimFloat.ltb (to_float a) (to_float b)
  end.

Definition gt (a b : num) : bool := lt b a.

Definition abs (a : num) : num :=
  match a with
  | Int z => Int (Z.abs z)
  | Float f => Float (PrimFloat.abs f)
  end.

(** [sub in s] on strings: [sub] occurs in [s] as a substring. *)
Fixpoint contains (sub s : string) : bool :=
  if String.prefix sub s then true
  else match s with
       | EmptyString => false
       | String _ s' => contains sub s'
       end.

(** [str(z)] for an int. *)
Definition str_int (z : Z) : string := NilZero.string_of_int (Z.to_int z).

(** A dict with string keys, in insertion order. *)
Definition dict (V : Type) : Type := list (string * V).

(** [d.get(k)]: the value stored under [k], [None] when the key is
    absent. *)
Fixpoint get {V : Type} (k : string) (d : dict V) : option V :=
  match d with
  | [] => None
  | (k', v) :: d' => if String.eqb k k' then Some v else get k d'
  end.

End Py.

(** ** The pyglet objects *)

(** The two batches of [helpers]. *)
Inductive Batch : Type := foreground_batch | background_batch.

(** The three images loaded when the module is imported. *)
Inductive Image : Type := SLOOP_ICON | BRIGANTINE_ICON | GALLEON_ICON.

(** [pyglet.shapes.Circle] *)
Module Circle.

Record t : Type := mk
  { x : Py.num;
    y : Py.num;
    radius : Py.num;
    color : list Z;
    batch : Batch;
    visible : bool;
    deleted : nat }.

(** [Circle(x, y, radius, color=color, batch=batch)] *)
Definition new (x0 y0 r : Py.num) (col : list Z) (b : Batch) : t :=
  mk x0 y0 r col b true 0%nat.

Definition set_x (c : t) (v : Py.num) : t :=
  mk v (y c) (radius c) (color c) (batch c) (visible c) (deleted c).
Definition set_y (c : t) (v : Py.num) : t :=
  mk (x c) v (radius c) (color c) (batch c) (visible c) (deleted c).
Definition set_color (c : t) (v : list Z) : t :=
  mk (x c) (y c) (radius c) v (batch c) (visible c) (deleted c).
Definition set_visible (c : t) (v : bool) : t :=
  mk (x c) (y c) (radius c) (color c) (batch c) v (deleted c).

(** [c.delete()] *)
Definition delete (c : t) : t :=
  mk (x c) (y c) (radius c) (color c) (batch c) (visible c) (S (deleted c)).

End Circle.

(** [pyglet.sprite.Sprite] *)
Module Sprite.

Record t : Type := mk
  { img : Image;
    x : Py.num;
    y : Py.num;
    batch : Batch;
    visible : bool;
    deleted : nat }.

(** [Sprite(img, x, y, batch=batch)] *)
Definition new (i : Image) (x0 y0 : Py.num) (b : Batch) : t :=
  mk i x0 y0 b true 0%nat.

Definition set_x (s : t) (v : Py.num) : t :=
  mk (img s) v (y s) (batch s) (visible s) (deleted s).
Definition set_y (s : t) (v : Py.num) : t :=
  mk (img s) (x s) v (batch s) (visible s) (deleted s).
Definition set_visible (s : t) (v : bool) : t :=
  mk (img s) (x s) (y s) (batch s) v (deleted s).

(** [s.delete()] *)
Definition delete (s : t) : t :=
  mk (img s) (x s) (y s) (batch s) (visible s) (S (deleted s)).

End Sprite.

(** [Graphics.elements.LabelDefault], a pyglet label *)
Module LabelDefault.

Record t : Type := mk
  { text : string;
    x : Py.num;
    y : Py.num;
    batch : Batch;
    visible : bool;
    deleted : nat }.

(** [LabelDefault(text, x=x, y=y, batch=batch)] *)
Definition new (s : string) (x0 y0 : Py.num) (b : Batch) : t :=
  mk s x0 y0 b true 0%nat.

Definition set_text (l : t) (v : string) : t :=
  mk v (x l) (y l) (batch l) (visible l) (deleted l).
Definition set_x (l : t) (v : Py.num) : t :=
  mk (text l) v (y l) (batch l) (visible l) (deleted l).
Definition set_y (l : t) (v : Py.num) : t :=
  mk (text l) (x l) v (batch l) (visible l) (deleted l).
Definition set_visible (l : t) (v : bool) : t :=
  mk (text l) (x l) (y l) (batch l) v (deleted l).

(** [l.delete()] *)
Definition delete (l : t) : t :=
  mk (text l) (x l) (y l) (batch l) (visible l) (S (deleted l)).

End LabelDefault.

(** ** What the module imports *)

(** World and viewer coordinates are dicts from field name to number; this
    module only hands them to the helpers. *)
Definition Coords : Type := Py.dict Py.num.

(** A crew identifier as read by [Ship.get_crew_guid]: a hashable key. *)
Definition Guid : Type := Z.

(** An entry of [Crew.tracker]; [color] is a tuple of channel values. *)
Record Crew : Type := { color : list Z }.

(** The names [ship.py] imports and the built-in it relies on:
    [helpers.calculate_distance], [helpers.object_to_screen] (whose result
    is kept as it is tested by [if self.screen_coords]: [None] stands for
    every falsy result, [Some] for a pair of screen coordinates),
    [mapping.ships], the attribute [coord_offset] of [DisplayObject], and
    Python's formatting of a float. *)
Class Helpers : Type :=
  { calculate_distance : Coords -> Coords -> Py.num;
    object_to_screen : Coords -> Coords -> option (Py.num * Py.num);
    ships : Py.dict (Py.dict string);
    coord_offset : Z;
    format_float : float -> string }.

(** What is read from the game's memory, and the crew registry, both of
    which change between two calls without this module's doing. *)
Record World : Type :=
  { _get_actor_id : Z -> Z;
    _get_root_comp_address : Z -> Z;
    _coord_builder : Z -> Z -> Coords;
    get_crew_guid : Z -> Guid;
    tracker : Guid -> option Crew }.

(** ** The module *)

Module ShipModule.

Definition CIRCLE_SIZE : Py.num := Py.Int 25.

(** The attributes of a [ShipModule] object. *)
Record t : Type := mk
  { actor_id : Z;
    address : Z;
    actor_root_comp_ptr : Z;
    my_coords : Coords;
    raw_name : string;
    name : string;
    coords : Coords;
    distance : Py.num;
    screen_coords : option (Py.num * Py.num);
    crew_guid : Guid;
    text_str : string;
    text_render : LabelDefault.t;
    circle : Circle.t;
    icon : Sprite.t;
    to_delete : bool }.

Definition set_my_coords (s : t) (v : Coords) : t :=
  mk (actor_id s) (address s) (actor_root_comp_ptr s) v (raw_name s)
     (name s) (coords s) (distance s) (screen_coords s) (crew_guid s)
     (text_str s) (text_render s) (circle s) (icon s) (to_delete s).
Definition set_coords (s : t) (v : Coords) : t :=
  mk (actor_id s) (address s) (actor_root_comp_ptr s) (my_coords s)
     (raw_name s) (name s) v (distance s) (screen_coords s) (crew_guid s)
     (text_str s) (text_render s) (circle s) (icon s) (to_delete s).
Definition set_distance (s : t) (v : Py.num) : t :=
  mk (actor_id s) (address s) (actor_root_comp_ptr s) (my_coords s)
     (raw_name s) (name s) (coords s) v (screen_coords s) (crew_guid s)
     (text_str s) (text_render s) (circle s) (icon s) (to_delete s).
Definition set_screen_coords (s : t) (v : option (Py.num * Py.num)) : t :=
  mk (actor_id s) (address s) (actor_root_comp_ptr s) (my_coords s)
     (raw_name s) (name s) (coords s) (distance s) v (crew_guid s)
     (text_str s) (text_render s) (circle s) (icon s) (to_delete s).
Definition set_text_str (s : t) (v : string) : t :=
  mk (actor_id s) (address s) (actor_root_comp_ptr s) (my_coords s)
     (raw_name s) (name s) (coords s) (distance s) (screen_coords s)
     (crew_guid s) v (text_render s) (circle s) (icon s) (to_delete s).
Definition set_text_render (s : t) (v : LabelDefault.t) : t :=
  mk (actor_id s) (address s) (actor_root_comp_ptr s) (my_coords s)
     (raw_name s) (name s) (coords s) (distance s) (screen_coords s)
     (crew_guid s) (text_str s) v (circle s) (icon s) (to_delete s).
Definition set_circle (s : t) (v : Circle.t) : t :=
  mk (actor_id s) (address s) (actor_root_comp_ptr s) (my_coords s)
     (raw_name s) (name s) (coords s) (distance s) (screen_coords s)
     (crew_guid s) (text_str s) (text_render s) v (icon s) (to_delete s).
Definition set_icon (s : t) (v : Sprite.t) : t :=
  mk (actor_id s) (address s) (actor_root_comp_ptr s) (my_coords s)
     (raw_name s) (name s) (coords s) (distance s) (screen_coords s)
     (crew_guid s) (text_str s) (text_render s) (circle s) v (to_delete s).
Definition set_to_delete (s : t) (v : bool) : t :=
  mk (actor_id s) (address s) (actor_root_comp_ptr s) (my_coords s)
     (raw_name s) (name s) (coords s) (distance s) (screen_coords s)
     (crew_guid s) (text_str s) (text_render s) (circle s) (icon s) v.

Section Methods.

Context {H : Helpers}.

(** [f"{x}"] for a number *)
Definition format (a : Py.num) : string :=
  match a with
  | Py.Int z => Py.str_int z
  | Py.Float f => format_float f
  end.

(** [_build_icon_render]; reads [self.name] and [self.screen_coords] *)
Definition _build_icon_render (name : string)
    (screen_coords : option (Py.num * Py.num)) : Sprite.t :=
  let ship_type :=
    if Py.contains "Galleon" name then GALLEON_ICON
    else if Py.contains "Brig" name then BRIGANTINE_ICON
    else SLOOP_ICON in
  match screen_coords with
  | Some sc =>
      Sprite.new ship_type (Py.sub (fst sc) CIRCLE_SIZE)
                 (Py.sub (snd sc) CIRCLE_SIZE) foreground_batch
  | None => Sprite.new ship_type (Py.Int 0) (Py.Int 0) foreground_batch
  end.

(** [_build_circle_render]; reads [self.screen_coords] *)
Definition _build_circle_render
    (screen_coords : option (Py.num * Py.num)) : Circle.t :=
  match screen_coords with
  | Some sc =>
      Circle.new (Py.sub (fst sc) (Py.truediv CIRCLE_SIZE (Py.Int 2)))
                 (Py.sub (snd sc) (Py.truediv CIRCLE_SIZE (Py.Int 2)))
                 CIRCLE_SIZE [255; 255; 255] background_batch
  | None =>
      Circle.new (Py.Int 0) (Py.Int 0) CIRCLE_SIZE [255; 255; 255]
                 background_batch
  end.

(** [_built_text_string]; reads [self.name] and [self.distance] *)
Definition _built_text_string (name : string) (distance : Py.num) : string :=
  name ++ " - " ++ format distance ++ "m".

(** [_build_text_render]; reads [self.text_str] and [self.screen_coords] *)
Definition _build_text_render (text_str : string)
    (screen_coords : option (Py.num * Py.num)) : LabelDefault.t :=
  match screen_coords with
  | Some sc =>
      LabelDefault.new text_str
        (Py.add (Py.add (fst sc) (Py.truediv CIRCLE_SIZE (Py.Int 2)))
                (Py.Int 10))
        (Py.sub (Py.add (snd sc) (Py.truediv CIRCLE_SIZE (Py.Int 2)))
                (Py.Int 30))
        foreground_batch
  | None => LabelDefault.new text_str (Py.Int 0) (Py.Int 0) foreground_batch
  end.

(** [ShipModule(actor_id, address, raw_name, my_coords)].  [None] when the
    constructor raises: [raw_name] is not a key of [ships]
    ([None.get("Name")]), or its entry has no ["Name"] (the substring test
    on [None] in [_build_icon_render]). *)
Definition init (w : World) (actor_id address : Z) (raw_name : string)
    (my_coords : Coords) : option t :=
  let actor_root_comp_ptr := _get_root_comp_address w address in
  match Py.get raw_name ships with
  | None => None
  | Some entry =>
      match Py.get "Name" entry with
      | None => None
      | Some name =>
          let coords := _coord_builder w actor_root_comp_ptr coord_offset in
          let distance := calculate_distance coords my_coords in
          let screen_coords := object_to_screen my_coords coords in
          let crew_guid := get_crew_guid w address in
          let text_str := _built_text_string name distance in
          let text_render := _build_text_render text_str screen_coords in
          let circle := _build_circle_render screen_coords in
          let icon := _build_icon_render name screen_coords in
          Some (mk actor_id address actor_root_comp_ptr my_coords raw_name
                   name coords distance screen_coords crew_guid text_str
                   text_render circle icon false)
      end
  end.

(** [update(self, my_coords)]; the result is the object after the call. *)
Definition update (w : World) (my : Coords) (self : t) : t :=
  if negb (_get_actor_id w (address self) =? actor_id self) then
    let self := set_to_delete self true in
    let self := set_circle self (Circle.delete (circle self)) in
    let self := set_icon self (Sprite.delete (icon self)) in
    set_text_render self (LabelDefault.delete (text_render self))
  else
    let self := set_my_coords self my in
    let self := set_coords self
                  (_coord_builder w (actor_root_comp_ptr self) coord_offset) in
    let new_distance := calculate_distance (coords self) (my_coords self) in
    let self := set_screen_coords self
                  (object_to_screen (my_coords self) (coords self)) in
    match screen_coords self with
    | Some sc =>
        let self :=
          if Py.contains "Near" (name self)
             && Py.gt new_distance (Py.Int 1750)
          then
            let self := set_text_render self
                          (LabelDefault.set_visible (text_render self) false) in
            let self := set_circle self
                          (Circle.set_visible (circle self) false) in
            set_icon self (Sprite.set_visible (icon self) false)
          else if negb (Py.contains "Near" (name self))
                  && Py.lt new_distance (Py.Int 1750)
          then
            let self := set_text_render self
                          (LabelDefault.set_visible (text_render self) false) in
            let self := set_circle self
                          (Circle.set_visible (circle self) false) in
            set_icon self (Sprite.set_visible (icon self) false)
          else
            let self := set_text_render self
                          (LabelDefault.set_visible (text_render self) true) in
            let self := set_icon self
                          (Sprite.set_visible (icon self) true) in
            set_circle self (Circle.set_visible (circle self) true) in
        let self := set_circle self
          (Circle.set_x (circle self)
             (Py.sub (fst sc) (Py.truediv CIRCLE_SIZE (Py.Int 2)))) in
        let self := set_circle self
          (Circle.set_y (circle self)
             (Py.sub (snd sc) (Py.truediv CIRCLE_SIZE (Py.Int 2)))) in
        let self := set_icon self
          (Sprite.set_x (icon self)
             (Py.sub (fst sc) (Py.mul CIRCLE_SIZE (Py.Float 1.45)))) in
        let self := set_icon self
          (Sprite.set_y (icon self)
             (Py.sub (snd sc) (Py.mul CIRCLE_SIZE (Py.Float 1.45)))) in
        let self := set_text_render self
          (LabelDefault.set_x (text_render self)
             (Py.add (Py.add (fst sc) (Py.truediv CIRCLE_SIZE (Py.Int 2)))
                     (Py.Int 10))) in
        let self := set_text_render self
          (LabelDefault.set_y (text_render self)
             (Py.sub (Py.add (snd sc) (Py.truediv CIRCLE_SIZE (Py.Int 2)))
                     (Py.Int 30))) in
        let self :=
          match tracker w (crew_guid self) with
          | Some crew =>
              set_circle self
                (Circle.set_color (circle self) (firstn 3 (color crew)))
          | None => self
          end in
        let self := set_distance self new_distance in
        let self := set_text_str self
                      (_built_text_string (name self) (distance self)) in
        set_text_render self
          (LabelDefault.set_text (text_render self) (text_str self))
    | None =>
        let self := set_text_render self
                      (LabelDefault.set_visible (text_render self) false) in
        let self := set_circle self (Circle.set_visible (circle self) false) in
        set_icon self (Sprite.set_visible (icon self) false)
    end.

(** [_delete(self)] *)
Definition _delete (self : t) : t :=
  let self := set_text_render self
                (LabelDefault.delete (text_render self)) in
  let self := set_circle self (Circle.delete (circle self)) in
  set_icon self (Sprite.delete (icon self)).

End Methods.

End ShipModule.

Import ShipModule.

(** ** Observations on a record and on a call *)

Section Observations.

Context {H : Helpers}.

(** The comparison that opens [update]: the identifier read at the stored
    address is the stored one. *)
Definition identity_ok (w : World) (self : t) : bool :=
  _get_actor_id w (address self) =? actor_id self.

(** What a call that passes the comparison reads and computes before it
    touches the pyglet objects. *)
Definition fresh_coords (w : World) (self : t) : Coords :=
  _coord_builder w (actor_root_comp_ptr self) coord_offset.

Definition fresh_distance (w : World) (my : Coords) (self : t) : Py.num :=
  calculate_distance (fresh_coords w self) my.

Definition fresh_screen (w : World) (my : Coords) (self : t)
  : option (Py.num * Py.num) :=
  object_to_screen my (fresh_coords w self).

(** The record is read at distance [d] with a projection on the screen. *)
Definition on_screen_at (w : World) (my : Coords) (self : t) (d : Py.num)
  : Prop :=
  identity_ok w self = true /\
  fresh_screen w my self <> None /\
  fresh_distance w my self = d.

(** The visibility the distance switch of [update] assigns: the [else] of
    its two tests. *)
Definition shown (name : string) (d : Py.num) : bool :=
  if Py.contains "Near" name && Py.gt d (Py.Int 1750) then false
  else if negb (Py.contains "Near" name) && Py.lt d (Py.Int 1750) then false
  else true.

Definition all_visible (self : t) : Prop :=
  LabelDefault.visible (text_render self) = true /\
  Circle.visible (circle self) = true /\
  Sprite.visible (icon self) = true.

Definition all_invisible (self : t) : Prop :=
  LabelDefault.visible (text_render self) = false /\
  Circle.visible (circle self) = false /\
  Sprite.visible (icon self) = false.

(** The positions of the label, the circle and the icon. *)
Definition positions (self : t)
  : (Py.num * Py.num) * (Py.num * Py.num) * (Py.num * Py.num) :=
  ((LabelDefault.x (text_render self), LabelDefault.y (text_render self)),
   (Circle.x (circle self), Circle.y (circle self)),
   (Sprite.x (icon self), Sprite.y (icon self))).

(** The positions [update] writes for the screen coordinates [(sx, sy)]:
    the circle 12.5 to the left and below, the icon 36.25 to the left and
    below, the label 12.5 + 10 to the right and 12.5 - 30 above. *)
Definition positions_for (sx sy : Py.num)
  : (Py.num * Py.num) * (Py.num * Py.num) * (Py.num * Py.num) :=
  ((Py.add (Py.add sx (Py.Float 12.5)) (Py.Int 10),
    Py.sub (Py.add sy (Py.Float 12.5)) (Py.Int 30)),
   (Py.sub sx (Py.Float 12.5), Py.sub sy (Py.Float 12.5)),
   (Py.sub sx (Py.Float 36.25), Py.sub sy (Py.Float 36.25))).

(** How many [delete()] calls the label, the circle and the icon have
    received. *)
Definition deletions (self : t) : nat * nat * nat :=
  (LabelDefault.deleted (text_render self),
   Circle.deleted (circle self),
   Sprite.deleted (icon self)).

(** A call the registry makes on a record: [update] in the world of that
    frame, or [_delete]. *)
Inductive call : Type :=
| Update (w : World) (my : Coords)
| Dispose.

Definition step (self : t) (c : call) : t :=
  match c with
  | Update w my => update w my self
  | Dispose => _delete self
  end.

Definition run (cs : list call) (self : t) : t := fold_left step cs self.

(** The calls that reach a [delete()]: [_delete], and an [update] whose
    identity comparison fails. *)
Definition disposes (self : t) (c : call) : bool :=
  match c with
  | Update w _ => negb (identity_ok w self)
  | Dispose => true
  end.

Definition disposals (self : t) (cs : list call) : nat :=
  List.length (filter (disposes self) cs).

(** The calls that set [to_delete]: an [update] whose identity comparison
    fails. *)
Definition mismatches (self : t) (c : call) : bool :=
  match c with
  | Update w _ => negb (identity_ok w self)
  | Dispose => false
  end.

(** The position every pyglet object is built at when the constructor
    finds no screen coordinates. *)
Definition origin : Py.num * Py.num := (Py.Int 0, Py.Int 0).

End Observations.

(** ** A small scene for examples

    Stand-ins for the imported helpers, chosen so that every value can be
    followed by hand: the viewer looks along the x axis, the distance is
    the distance along that axis, a target is projected at its (y, z)
    unless it lies behind the viewer. *)

Module Demo.

Definition axis (k : string) (c : Coords) : Py.num :=
  match Py.get k c with
  | Some v => v
  | None => Py.Int 0
  end.

(** The text of the floats that occur in the examples. *)
Definition float_text (f : float) : string :=
  if PrimFloat.eqb f 1749.999 then "1749.999"
  else if PrimFloat.eqb f 1750.001 then "1750.001"
  else "nan".

Definition helpers : Helpers :=
  {| calculate_distance c m := Py.abs (Py.sub (axis "x" c) (axis "x" m));
     object_to_screen m c :=
       if Py.lt (axis "x" c) (axis "x" m) then None
       else Some (axis "y" c, axis "z" c);
     ships := [("BP_SmallShipTemplate_C", [("Name", "Sloop (Near)")]);
               ("BP_SmallShipNetProxy_C", [("Name", "Sloop")])];
     coord_offset := 300;
     format_float := float_text |}.

(** The viewer at [x] on the axis. *)
Definition viewer (x : Py.num) : Coords :=
  [("x", x); ("y", Py.Int 0); ("z", Py.Int 0)].

(** One sloop at [x] on the axis, projected at (500, 400): its near actor
    at address 4096 with identifier 11, its far actor at address 8192 with
    identifier 12, both with the root component at 64 past the actor.  The
    crew 7 is registered with an opaque red. *)
Definition world (x : Py.num) : World :=
  {| _get_actor_id a :=
       if a =? 4096 then 11 else if a =? 8192 then 12 else 0;
     _get_root_comp_address a := a + 64;
     _coord_builder p off := [("x", x); ("y", Py.Int 500); ("z", Py.Int 400)];
     get_crew_guid a := 7;
     tracker g :=
       if g =? 7 then Some {| color := [255; 0; 0; 255] |} else None |}.

(** The same memory after the game reused both addresses for other
    actors. *)
Definition reused (x : Py.num) : World :=
  {| _get_actor_id a := 99;
     _get_root_comp_address := _get_root_comp_address (world x);
     _coord_builder := _coord_builder (world x);
     get_crew_guid := get_crew_guid (world x);
     tracker := tracker (world x) |}.

(** The near and the far record of the sloop, as the constructor builds
    them with the sloop at 1200 and the viewer at 0. *)
Definition near : t :=
  {| actor_id := 11;
     address := 4096;
     actor_root_comp_ptr := 4160;
     my_coords := viewer (Py.Int 0);
     raw_name := "BP_SmallShipTemplate_C";
     name := "Sloop (Near)";
     coords := [("x", Py.Int 1200); ("y", Py.Int 500); ("z", Py.Int 400)];
     distance := Py.Int 1200;
     screen_coords := Some (Py.Int 500, Py.Int 400);
     crew_guid := 7;
     text_str := "Sloop (Near) - 1200m";
     text_render :=
       LabelDefault.mk "Sloop (Near) - 1200m" (Py.Float 522.5)
                       (Py.Float 382.5) foreground_batch true 0;
     circle :=
       Circle.mk (Py.Float 487.5) (Py.Float 387.5) (Py.Int 25)
                 [255; 255; 255] background_batch true 0;
     icon :=
       Sprite.mk SLOOP_ICON (Py.Int 475) (Py.Int 375) foreground_batch
                 true 0;
     to_delete := false |}.

Definition far : t :=
  {| actor_id := 12;
     address := 8192;
     actor_root_comp_ptr := 8256;
     my_coords := viewer (Py.Int 0);
     raw_name := "BP_SmallShipNetProxy_C";
     name := "Sloop";
     coords := [("x", Py.Int 1200); ("y", Py.Int 500); ("z", Py.Int 400)];
     distance := Py.Int 1200;
     screen_coords := Some (Py.Int 500, Py.Int 400);
     crew_guid := 7;
     text_str := "Sloop - 1200m";
     text_render :=
       LabelDefault.mk "Sloop - 1200m" (Py.Float 522.5) (Py.Float 382.5)
                       foreground_batch true 0;
     circle :=
       Circle.mk (Py.Float 487.5) (Py.Float 387.5) (Py.Int 25)
                 [255; 255; 255] background_batch true 0;
     icon :=
       Sprite.mk SLOOP_ICON (Py.Int 475) (Py.Int 375) foreground_batch
                 true 0;
     to_delete := false |}.

(** The near record as the constructor builds it with the sloop at 1200
    and the viewer at 1500, past the sloop: the projection is empty. *)
Definition near_behind : t :=
  {| actor_id := 11;
     address := 4096;
     actor_root_comp_ptr := 4160;
     my_coords := viewer (Py.Int 1500);
     raw_name := "BP_SmallShipTemplate_C";
     name := "Sloop (Near)";
     coords := [("x", Py.Int 1200); ("y", Py.Int 500); ("z", Py.Int 400)];
     distance := Py.Int 300;
     screen_coords := None;
     crew_guid := 7;
     text_str := "Sloop (Near) - 300m";
     text_render :=
       LabelDefault.mk "Sloop (Near) - 300m" (Py.Int 0) (Py.Int 0)
                       foreground_batch true 0;
     circle :=
       Circle.mk (Py.Int 0) (Py.Int 0) (Py.Int 25) [255; 255; 255]
                 background_batch true 0;
     icon :=
       Sprite.mk SLOOP_ICON (Py.Int 0) (Py.Int 0) foreground_batch true 0;
     to_delete := false |}.

(** A few frames in the life of the near record: the sloop seen at 1800,
    the viewer past the sloop, the address reused, and the disposal. *)
Definition frames : list call :=
  [Update (world (Py.Int 1800)) (viewer (Py.Int 0));
   Update (world (Py.Int 1200)) (viewer (Py.Int 1500));
   Update (reused (Py.Int 1200)) (viewer (Py.Int 0));
   Dispose].

End Demo.

(** * Properties *)

(** ** The substring test *)

Lemma prefix_app (sub s : string) :
  String.prefix sub s = true <-> exists post, s = sub ++ post.
Proof.
  revert s. induction sub as [|a sub IH]; intros [|b s]; cbn.
  - split; [exists ""; reflexivity | reflexivity].
  - split; [exists (String b s); reflexivity | reflexivity].
  - split; [discriminate | intros [post E]; discriminate].
  - destruct (ascii_dec a b) as [->|Hab].
    + rewrite IH. split; intros [post E]; exists post; congruence.
    + split; [discriminate | intros [post E]; congruence].
Qed.

(** [Py.contains sub s] holds exactly when [sub] occurs in [s]. *)
Lemma contains_spec (sub s : string) :
  Py.contains sub s = true <-> exists pre post, s = pre ++ sub ++ post.
Proof.
  induction s as [|c s IH]; cbn [Py.contains].
  - destruct (String.prefix sub "") eqn:P.
    + split; [intros _ | reflexivity].
      apply prefix_app in P. destruct P as [post E]. exists "", post. exact E.
    + split; [discriminate|]. intros (pre & post & E).
      destruct pre; [|discriminate]. cbn in E.
      assert (String.prefix sub "" = true) by (apply prefix_app; eauto).
      congruence.
  - destruct (String.prefix sub (String c s)) eqn:P.
    + split; [intros _ | reflexivity].
      apply prefix_app in P. destruct P as [post E]. exists "", post. exact E.
    + rewrite IH. split.
      * intros (pre & post & E). exists (String c pre), post.
        cbn. congruence.
      * intros (pre & post & E). destruct pre as [|c' pre]; cbn in E.
        -- assert (String.prefix sub (String c s) = true)
             by (apply prefix_app; eauto).
           congruence.
        -- exists pre, post. congruence.
Qed.

(** ** The constants and the constructor on the scene *)

Lemma half_circle_size :
  Py.truediv CIRCLE_SIZE (Py.Int 2) = Py.Float 12.5.
Proof. reflexivity. Qed.

Lemma icon_offset :
  Py.mul CIRCLE_SIZE (Py.Float 1.45) = Py.Float 36.25.
Proof. reflexivity. Qed.

Example init_near :
  @init Demo.helpers (Demo.world (Py.Int 1200)) 11 4096
        "BP_SmallShipTemplate_C" (Demo.viewer (Py.Int 0)) = Some Demo.near.
Proof. vm_compute. reflexivity. Qed.

Example init_far :
  @init Demo.helpers (Demo.world (Py.Int 1200)) 12 8192
        "BP_SmallShipNetProxy_C" (Demo.viewer (Py.Int 0)) = Some Demo.far.
Proof. vm_compute. reflexivity. Qed.

Example init_unknown_name :
  @init Demo.helpers (Demo.world (Py.Int 1200)) 13 12288 "BP_Rowboat_C"
        (Demo.viewer (Py.Int 0)) = None.
Proof. reflexivity. Qed.

(** ** The three paths of [update] *)

(** Unfolds the assignments of a method down to the record they build. *)
Ltac assignments :=
  cbv beta iota zeta delta
    [update _delete identity_ok fresh_screen fresh_distance fresh_coords
     set_my_coords set_coords set_distance set_screen_coords set_text_str
     set_text_render set_circle set_icon set_to_delete
     actor_id address actor_root_comp_ptr my_coords raw_name name coords
     distance screen_coords crew_guid text_str text_render circle icon
     to_delete fst snd
     Circle.set_x Circle.set_y Circle.set_color Circle.set_visible
     Circle.delete Circle.x Circle.y Circle.radius Circle.color Circle.batch
     Circle.visible Circle.deleted
     Sprite.set_x Sprite.set_y Sprite.set_visible Sprite.delete Sprite.img
     Sprite.x Sprite.y Sprite.batch Sprite.visible Sprite.deleted
     LabelDefault.set_text LabelDefault.set_x LabelDefault.set_y
     LabelDefault.set_visible LabelDefault.delete LabelDefault.text
     LabelDefault.x LabelDefault.y LabelDefault.batch LabelDefault.visible
     LabelDefault.deleted].

Section Update.

Context {H : Helpers}.

(** The identity comparison fails: the flag is set and each pyglet object
    receives one [delete()]. *)
Lemma update_mismatch_eq (w : World) (my : Coords) (self : t) :
  identity_ok w self = false ->
  update w my self =
  mk (actor_id self) (address self) (actor_root_comp_ptr self)
     (my_coords self) (raw_name self) (name self) (coords self)
     (distance self) (screen_coords self) (crew_guid self) (text_str self)
     (LabelDefault.delete (text_render self)) (Circle.delete (circle self))
     (Sprite.delete (icon self)) true.
Proof.
  unfold identity_ok, update. intros ->. reflexivity.
Qed.

(** The comparison passes and the projection is empty. *)
Lemma update_off_screen_eq (w : World) (my : Coords) (self : t) :
  identity_ok w self = true ->
  fresh_screen w my self = None ->
  update w my self =
  mk (actor_id self) (address self) (actor_root_comp_ptr self) my
     (raw_name self) (name self) (fresh_coords w self) (distance self) None
     (crew_guid self) (text_str self)
     (LabelDefault.set_visible (text_render self) false)
     (Circle.set_visible (circle self) false)
     (Sprite.set_visible (icon self) false) (to_delete self).
Proof.
  unfold identity_ok, fresh_screen, fresh_coords, update.
  intros -> Hs. cbn. rewrite Hs. reflexivity.
Qed.

(** The comparison passes and the projection is [(sx, sy)]. *)
Lemma update_on_screen_eq (w : World) (my : Coords) (self : t)
    (sx sy : Py.num) :
  identity_ok w self = true ->
  fresh_screen w my self = Some (sx, sy) ->
  let d := fresh_distance w my self in
  let v := shown (name self) d in
  let txt := name self ++ " - " ++ format d ++ "m" in
  update w my self =
  mk (actor_id self) (address self) (actor_root_comp_ptr self) my
     (raw_name self) (name self) (fresh_coords w self) d (Some (sx, sy))
     (crew_guid self) txt
     (LabelDefault.mk txt
        (Py.add (Py.add sx (Py.Float 12.5)) (Py.Int 10))
        (Py.sub (Py.add sy (Py.Float 12.5)) (Py.Int 30))
        (LabelDefault.batch (text_render self)) v
        (LabelDefault.deleted (text_render self)))
     (Circle.mk (Py.sub sx (Py.Float 12.5)) (Py.sub sy (Py.Float 12.5))
        (Circle.radius (circle self))
        match tracker w (crew_guid self) with
        | Some crew => firstn 3 (color crew)
        | None => Circle.color (circle self)
        end
        (Circle.batch (circle self)) v (Circle.deleted (circle self)))
     (Sprite.mk (Sprite.img (icon self))
        (Py.sub sx (Py.Float 36.25)) (Py.sub sy (Py.Float 36.25))
        (Sprite.batch (icon self)) v (Sprite.deleted (icon self)))
     (to_delete self).
Proof.
  destruct self as [aid adr ptr my0 raw nm co d0 sc0 guid txt0 lbl cir ico del].
  destruct lbl, cir, ico.
  assignments. intros -> Hs. rewrite Hs, half_circle_size, icon_offset.
  unfold shown, _built_text_string. assignments.
  destruct (Py.contains "Near" nm && Py.gt _ _);
    [| destruct (negb (Py.contains "Near" nm) && Py.lt _ _)];
    destruct (tracker w guid); reflexivity.
Qed.

End Update.

(** ** What a call leaves alone *)

Section Frame.

Context {H : Helpers}.

(** [update] never assigns the identity, the two addresses, the name or the
    crew identifier. *)
Lemma update_keeps_identity (w : World) (my : Coords) (self : t) :
  let self' := update w my self in
  actor_id self' = actor_id self /\
  address self' = address self /\
  actor_root_comp_ptr self' = actor_root_comp_ptr self /\
  name self' = name self /\
  crew_guid self' = crew_guid self.
Proof.
  cbv zeta.
  destruct (identity_ok w self) eqn:Hid.
  - destruct (fresh_screen w my self) as [[sx sy]|] eqn:Hs.
    + rewrite (update_on_screen_eq w my self sx sy Hid Hs). cbn. tauto.
    + rewrite (update_off_screen_eq w my self Hid Hs). cbn. tauto.
  - rewrite (update_mismatch_eq w my self Hid). cbn. tauto.
Qed.

Lemma step_keeps_identity (self : t) (c : call) :
  actor_id (step self c) = actor_id self /\
  address (step self c) = address self.
Proof.
  destruct c as [w my|]; cbn [step].
  - pose proof (update_keeps_identity w my self) as K. cbv zeta in K. tauto.
  - split; reflexivity.
Qed.

Lemma step_keeps_disposes (self : t) (c c' : call) :
  disposes (step self c) c' = disposes self c'.
Proof.
  destruct (step_keeps_identity self c) as [Ha Hb].
  destruct c' as [w my|]; cbn [disposes]; [|reflexivity].
  unfold identity_ok. rewrite Ha, Hb. reflexivity.
Qed.

(** One call adds one [delete()] to each pyglet object when it is a
    [_delete] or an [update] that fails the comparison, and none
    otherwise. *)
Lemma step_deletions (self : t) (c : call) :
  deletions (step self c) =
  let n := if disposes self c then 1%nat else 0%nat in
  (LabelDefault.deleted (text_render self) + n,
   Circle.deleted (circle self) + n,
   Sprite.deleted (icon self) + n)%nat.
Proof.
  destruct c as [w my|]; cbn [step disposes].
  - destruct (identity_ok w self) eqn:Hid; cbn [negb]; cbv zeta.
    + rewrite !Nat.add_0_r.
      destruct (fresh_screen w my self) as [[sx sy]|] eqn:Hs.
      * rewrite (update_on_screen_eq w my self sx sy Hid Hs). reflexivity.
      * rewrite (update_off_screen_eq w my self Hid Hs). reflexivity.
    + rewrite (update_mismatch_eq w my self Hid), !Nat.add_1_r. reflexivity.
  - cbv zeta. rewrite !Nat.add_1_r. reflexivity.
Qed.

(** The visibility the distance switch assigns on the screen. *)
Lemma update_on_screen_shown (w : World) (my : Coords) (self : t)
    (d : Py.num) :
  on_screen_at w my self d ->
  let self' := update w my self in
  LabelDefault.visible (text_render self') = shown (name self) d /\
  Circle.visible (circle self') = shown (name self) d /\
  Sprite.visible (icon self') = shown (name self) d.
Proof.
  intros (Hid & Hs & Hd). cbv zeta.
  destruct (fresh_screen w my self) as [[sx sy]|] eqn:Hsc; [|congruence].
  rewrite (update_on_screen_eq w my self sx sy Hid Hsc), Hd. cbn. tauto.
Qed.

(** At 1750 neither test of the switch holds, whatever the name. *)
Lemma shown_at_1750 (nm : string) :
  shown nm (Py.Int 1750) = true /\ shown nm (Py.Float 1750) = true.
Proof.
  unfold shown. split; destruct (Py.contains "Near" nm); reflexivity.
Qed.

(** On an int distance the switch shows a "Near" name up to 1750 and any
    other name from 1750 on. *)
Lemma shown_int (nm : string) (z : Z) :
  shown nm (Py.Int z) =
  if Py.contains "Near" nm then z <=? 1750 else 1750 <=? z.
Proof.
  unfold shown, Py.gt, Py.lt.
  destruct (Py.contains "Near" nm); cbn [andb negb].
  - destruct (Z.ltb_spec 1750 z), (Z.leb_spec z 1750); reflexivity || lia.
  - destruct (Z.ltb_spec z 1750), (Z.leb_spec 1750 z); reflexivity || lia.
Qed.

(** So a near and a far record that are both on the screen at 1750 both
    end visible. *)
Lemma pair_at_1750 (w : World) (my : Coords) (near far : t) (d : Py.num) :
  d = Py.Int 1750 \/ d = Py.Float 1750 ->
  on_screen_at w my near d ->
  on_screen_at w my far d ->
  all_visible (update w my near) /\ all_visible (update w my far).
Proof.
  intros Hd Hn Hf.
  pose proof (update_on_screen_shown w my near d Hn) as A.
  pose proof (update_on_screen_shown w my far d Hf) as B.
  cbv zeta in A, B. unfold all_visible.
  destruct (shown_at_1750 (name near)) as [N1 N2].
  destruct (shown_at_1750 (name far)) as [F1 F2].
  destruct Hd as [-> | ->].
  - rewrite N1 in A. rewrite F1 in B. tauto.
  - rewrite N2 in A. rewrite F2 in B. tauto.
Qed.

Lemma sub_float (a : Py.num) (f : float) :
  Py.sub a (Py.Float f) = Py.Float (PrimFloat.sub (Py.to_float a) f).
Proof. destruct a; reflexivity. Qed.

End Frame.

(** ** The claims *)

Section Claims.

Context {H : Helpers}.

(** C2. When the identifier read at the stored address differs from the
    stored one, [update] sets [to_delete], sends one [delete()] to the
    circle, the icon and the label, and returns: every other attribute of
    the record and of the three pyglet objects is as before the call. *)
Theorem update_identity_mismatch (w : World) (my : Coords) (self : t) :
  _get_actor_id w (address self) <> actor_id self ->
  let self' := update w my self in
  to_delete self' = true /\
  deletions self' =
    (S (LabelDefault.deleted (text_render self)),
     S (Circle.deleted (circle self)),
     S (Sprite.deleted (icon self))) /\
  self' =
    mk (actor_id self) (address self) (actor_root_comp_ptr self)
       (my_coords self) (raw_name self) (name self) (coords self)
       (distance self) (screen_coords self) (crew_guid self) (text_str self)
       (LabelDefault.delete (text_render self)) (Circle.delete (circle self))
       (Sprite.delete (icon self)) true.
Proof.
  intros Hne. cbv zeta.
  assert (Hid : identity_ok w self = false)
    by (unfold identity_ok; apply Z.eqb_neq; exact Hne).
  rewrite (update_mismatch_eq w my self Hid).
  repeat split.
Qed.

(** C3. After an [update] that passes the identity comparison the label,
    the circle and the icon are either all invisible, or all visible and
    placed at the fixed offsets from the screen coordinates this very call
    computed and stored. *)
Theorem update_visibility_uniform (w : World) (my : Coords) (self : t) :
  _get_actor_id w (address self) = actor_id self ->
  let self' := update w my self in
  (LabelDefault.visible (text_render self') = Circle.visible (circle self') /\
   Circle.visible (circle self') = Sprite.visible (icon self')) /\
  (all_invisible self' \/
   (all_visible self' /\
    exists sx sy,
      fresh_screen w my self = Some (sx, sy) /\
      screen_coords self' = Some (sx, sy) /\
      positions self' = positions_for sx sy)).
Proof.
  intros He. cbv zeta.
  assert (Hid : identity_ok w self = true)
    by (unfold identity_ok; apply Z.eqb_eq; exact He).
  destruct (fresh_screen w my self) as [[sx sy]|] eqn:Hs.
  - rewrite (update_on_screen_eq w my self sx sy Hid Hs).
    split; [split; reflexivity|].
    destruct (shown (name self) (fresh_distance w my self)).
    + right. split; [repeat split|]. exists sx, sy. repeat split.
    + left. repeat split.
  - rewrite (update_off_screen_eq w my self Hid Hs).
    split; [split; reflexivity|]. left. repeat split.
Qed.

(** C4. With both records of a pair projected on the screen: read at
    1749.999 the record named with "Near" ends visible and the other one
    invisible; read at 1750.001 the record without "Near" ends visible and
    the "Near" one invisible. *)
Theorem distance_switch_around_1750
    (w1 w2 : World) (my1 my2 : Coords) (near far : t) :
  Py.contains "Near" (name near) = true ->
  Py.contains "Near" (name far) = false ->
  on_screen_at w1 my1 near (Py.Float 1749.999) ->
  on_screen_at w1 my1 far (Py.Float 1749.999) ->
  on_screen_at w2 my2 near (Py.Float 1750.001) ->
  on_screen_at w2 my2 far (Py.Float 1750.001) ->
  (all_visible (update w1 my1 near) /\ all_invisible (update w1 my1 far)) /\
  (all_visible (update w2 my2 far) /\ all_invisible (update w2 my2 near)).
Proof.
  intros Hn Hf N1 F1 N2 F2.
  pose proof (update_on_screen_shown w1 my1 near _ N1) as A.
  pose proof (update_on_screen_shown w1 my1 far _ F1) as B.
  pose proof (update_on_screen_shown w2 my2 far _ F2) as C.
  pose proof (update_on_screen_shown w2 my2 near _ N2) as D.
  cbv zeta in A, B, C, D. unfold shown in A, B, C, D.
  rewrite Hn in A, D. rewrite Hf in B, C.
  change (Py.gt (Py.Float 1749.999) (Py.Int 1750)) with false in A.
  change (Py.lt (Py.Float 1749.999) (Py.Int 1750)) with true in B.
  change (Py.gt (Py.Float 1750.001) (Py.Int 1750)) with true in D.
  change (Py.lt (Py.Float 1750.001) (Py.Int 1750)) with false in C.
  cbn [andb negb] in A, B, C, D.
  unfold all_visible, all_invisible. tauto.
Qed.

(** C5. A record named "Sloop (Near)" that passes the identity comparison,
    is read at distance 1200 and is projected at (500, 400) ends the call
    with its circle visible at (487.5, 387.5) and its label reading
    "Sloop (Near) - 1200m". *)
Theorem sloop_near_at_1200 (w : World) (my : Coords) (self : t)
    (sx sy : Py.num) :
  name self = "Sloop (Near)" ->
  identity_ok w self = true ->
  fresh_distance w my self = Py.Int 1200 ->
  fresh_screen w my self = Some (sx, sy) ->
  Py.to_float sx = 500%float ->
  Py.to_float sy = 400%float ->
  let self' := update w my self in
  Circle.visible (circle self') = true /\
  Circle.x (circle self') = Py.Float 487.5 /\
  Circle.y (circle self') = Py.Float 387.5 /\
  LabelDefault.text (text_render self') = "Sloop (Near) - 1200m".
Proof.
  intros Hn Hid Hd Hs Hx Hy. cbv zeta.
  rewrite (update_on_screen_eq w my self sx sy Hid Hs), Hd, Hn.
  cbn [circle text_render Circle.visible Circle.x Circle.y LabelDefault.text].
  rewrite !sub_float, Hx, Hy.
  repeat split.
Qed.

(** C6. When the identity comparison passes and the projection is empty,
    the three pyglet objects end invisible, whatever the distance, and the
    position of each of them is the one it had before the call. *)
Theorem update_off_screen (w : World) (my : Coords) (self : t) :
  identity_ok w self = true ->
  fresh_screen w my self = None ->
  let self' := update w my self in
  all_invisible self' /\ positions self' = positions self.
Proof.
  intros Hid Hs. cbv zeta.
  rewrite (update_off_screen_eq w my self Hid Hs).
  repeat split.
Qed.

(** C7, as the code has it.  An [update] that passes the identity
    comparison stores the coordinates it read through the position handle;
    it stores the distance computed from them and the viewer when the
    projection gives screen coordinates, and leaves the stored distance as
    it was when the projection is empty. *)
Theorem update_coords_and_distance (w : World) (my : Coords) (self : t) :
  identity_ok w self = true ->
  let self' := update w my self in
  coords self' = fresh_coords w self /\
  distance self' =
    match fresh_screen w my self with
    | Some _ => calculate_distance (fresh_coords w self) my
    | None => distance self
    end.
Proof.
  intros Hid. cbv zeta.
  destruct (fresh_screen w my self) as [[sx sy]|] eqn:Hs.
  - rewrite (update_on_screen_eq w my self sx sy Hid Hs). split; reflexivity.
  - rewrite (update_off_screen_eq w my self Hid Hs). split; reflexivity.
Qed.

(** C8, as the code has it.  Over any sequence of [update] and [_delete]
    calls, the label, the circle and the icon each receive one [delete()]
    for every [_delete] and for every [update] that fails the identity
    comparison, and none from any other call: nothing in the record stops
    a second one. *)
Theorem deletions_of_run (cs : list call) (self : t) :
  deletions (run cs self) =
  (LabelDefault.deleted (text_render self) + disposals self cs,
   Circle.deleted (circle self) + disposals self cs,
   Sprite.deleted (icon self) + disposals self cs)%nat.
Proof.
  revert self. induction cs as [|c cs IH]; intro self.
  - cbn. rewrite !Nat.add_0_r. reflexivity.
  - change (run (c :: cs) self) with (run cs (step self c)).
    rewrite IH.
    pose proof (step_deletions self c) as D. cbv zeta in D.
    unfold deletions in D. injection D as Dl Dc Di.
    rewrite Dl, Dc, Di.
    assert (E : disposals (step self c) cs = disposals self cs).
    { unfold disposals. f_equal. apply filter_ext.
      intro c'. apply step_keeps_disposes. }
    rewrite E. unfold disposals at 4 5 6. cbn [filter].
    destruct (disposes self c); cbn [List.length];
      rewrite <- ?Nat.add_assoc, ?Nat.add_0_l; reflexivity.
Qed.

(** C9. Two [update] calls in a row with the same viewer coordinates and
    the same world leave, after the second, the screen coordinates, the
    stored distance and the positions of the three pyglet objects that the
    first one left. *)
Theorem update_twice_same_observables (w : World) (my : Coords) (self : t) :
  let once := update w my self in
  let twice := update w my once in
  screen_coords twice = screen_coords once /\
  distance twice = distance once /\
  positions twice = positions once.
Proof.
  cbv zeta.
  destruct (update_keeps_identity w my self) as (Ka & Kb & Kc & Kn & Kg).
  set (once := update w my self) in *.
  assert (Hid1 : identity_ok w once = identity_ok w self)
    by (unfold identity_ok; rewrite Ka, Kb; reflexivity).
  assert (Hs1 : fresh_screen w my once = fresh_screen w my self)
    by (unfold fresh_screen, fresh_coords; rewrite Kc; reflexivity).
  assert (Hd1 : fresh_distance w my once = fresh_distance w my self)
    by (unfold fresh_distance, fresh_coords; rewrite Kc; reflexivity).
  destruct (identity_ok w self) eqn:Hid.
  - destruct (fresh_screen w my self) as [[sx sy]|] eqn:Hs.
    + rewrite (update_on_screen_eq w my once sx sy Hid1 Hs1), Hd1.
      unfold once. rewrite (update_on_screen_eq w my self sx sy Hid Hs).
      repeat split.
    + rewrite (update_off_screen_eq w my once Hid1 Hs1).
      unfold once. rewrite (update_off_screen_eq w my self Hid Hs).
      repeat split.
  - rewrite (update_mismatch_eq w my once Hid1).
    repeat split.
Qed.

(** C10. When the projection gives screen coordinates and the distance
    switch hides the record (a "Near" name read beyond 1750, or a name
    without "Near" read below 1750), the call still writes the positions
    of the three pyglet objects for these coordinates, stores the distance
    and the text built from it, writes that text to the label, and gives
    the circle the first three channels of the crew's colour when the crew
    is registered, leaving its colour alone otherwise. *)
Theorem update_hidden_still_written (w : World) (my : Coords) (self : t)
    (sx sy : Py.num) :
  identity_ok w self = true ->
  fresh_screen w my self = Some (sx, sy) ->
  (Py.contains "Near" (name self) = true /\
   Py.gt (fresh_distance w my self) (Py.Int 1750) = true) \/
  (Py.contains "Near" (name self) = false /\
   Py.lt (fresh_distance w my self) (Py.Int 1750) = true) ->
  let self' := update w my self in
  let d := calculate_distance (fresh_coords w self) my in
  all_invisible self' /\
  positions self' = positions_for sx sy /\
  distance self' = d /\
  text_str self' = name self ++ " - " ++ format d ++ "m" /\
  LabelDefault.text (text_render self') = text_str self' /\
  Circle.color (circle self') =
    match tracker w (crew_guid self) with
    | Some crew => firstn 3 (color crew)
    | None => Circle.color (circle self)
    end.
Proof.
  intros Hid Hs Hhide. cbv zeta.
  rewrite (update_on_screen_eq w my self sx sy Hid Hs).
  assert (Hv : shown (name self) (fresh_distance w my self) = false).
  { unfold shown. destruct Hhide as [[Hn Hg]|[Hn Hl]].
    - rewrite Hn, Hg. reflexivity.
    - rewrite Hn, Hl. reflexivity. }
  rewrite Hv. repeat split.
Qed.

End Claims.


(** ** The constructor *)

Section Constructor.

Context {H : Helpers}.

(** What [init] returns when it returns. *)
Lemma init_some (w : World) (a adr : Z) (raw : string) (my : Coords)
    (self : t) :
  init w a adr raw my = Some self ->
  exists entry nm,
    Py.get raw ships = Some entry /\
    Py.get "Name" entry = Some nm /\
    let ptr := _get_root_comp_address w adr in
    let co := _coord_builder w ptr coord_offset in
    let d := calculate_distance co my in
    let sc := object_to_screen my co in
    let txt := _built_text_string nm d in
    self = mk a adr ptr my raw nm co d sc (get_crew_guid w adr) txt
              (_build_text_render txt sc) (_build_circle_render sc)
              (_build_icon_render nm sc) false.
Proof.
  unfold init.
  destruct (Py.get raw ships) as [entry|]; [|discriminate].
  destruct (Py.get "Name" entry) as [nm|] eqn:En; [|discriminate].
  intros [= <-]. exists entry, nm. cbv zeta.
  split; [reflexivity|]. split; [exact En | reflexivity].
Qed.


(** X2. A record the constructor returns is not flagged for removal, its
    label, circle and icon are visible and have received no [delete()],
    whatever the distance and the name; the circle is white with radius
    25; and when the projection was empty the three objects sit at the
    origin. *)
Theorem init_fresh (w : World) (a adr : Z) (raw : string) (my : Coords)
    (self : t) :
  init w a adr raw my = Some self ->
  to_delete self = false /\
  all_visible self /\
  deletions self = (0%nat, 0%nat, 0%nat) /\
  Circle.color (circle self) = [255; 255; 255] /\
  Circle.radius (circle self) = Py.Int 25 /\
  (screen_coords self = None -> positions self = (origin, origin, origin)).
Proof.
  intros Hi. destruct (init_some _ _ _ _ _ _ Hi) as (entry & nm & _ & _ & E).
  cbv zeta in E. subst self.
  cbn [to_delete screen_coords].
  unfold all_visible, deletions, positions, _build_text_render,
    _build_circle_render, _build_icon_render.
  destruct (object_to_screen my _) as [sc|];
    cbn; repeat split; discriminate.
Qed.


(** X4. The first [update] of a record built on the screen, in the world
    and for the viewer of its construction, leaves the label and the
    circle where the constructor put them and moves the icon: built 25 to
    the left of and below the screen coordinates, it is rewritten 36.25 to
    the left of and below them. *)
Theorem first_update_moves_icon (w : World) (a adr : Z) (raw : string)
    (my : Coords) (self : t) (sx sy : Py.num) :
  init w a adr raw my = Some self ->
  _get_actor_id w adr = a ->
  screen_coords self = Some (sx, sy) ->
  let self' := update w my self in
  fst (fst (positions self')) = fst (fst (positions self)) /\
  snd (fst (positions self')) = snd (fst (positions self)) /\
  snd (positions self) = (Py.sub sx (Py.Int 25), Py.sub sy (Py.Int 25)) /\
  snd (positions self') =
    (Py.sub sx (Py.Float 36.25), Py.sub sy (Py.Float 36.25)).
Proof.
  intros Hi Ha Hsc. cbv zeta.
  destruct (init_some _ _ _ _ _ _ Hi) as (entry & nm & _ & _ & E).
  cbv zeta in E.
  assert (Hptr : actor_root_comp_ptr self = _get_root_comp_address w adr)
    by (rewrite E; reflexivity).
  assert (Hsc' : object_to_screen my
                   (_coord_builder w (_get_root_comp_address w adr)
                      coord_offset) = Some (sx, sy))
    by (rewrite E in Hsc; exact Hsc).
  assert (Hid : identity_ok w self = true).
  { unfold identity_ok. rewrite E. cbn [address actor_id].
    apply Z.eqb_eq. exact Ha. }
  assert (Hs : fresh_screen w my self = Some (sx, sy)).
  { unfold fresh_screen, fresh_coords. rewrite Hptr. exact Hsc'. }
  rewrite (update_on_screen_eq w my self sx sy Hid Hs).
  rewrite E. unfold positions, _build_text_render, _build_circle_render,
    _build_icon_render.
  cbn [text_render circle icon]. rewrite Hsc'.
  destruct (Py.contains "Galleon" nm), (Py.contains "Brig" nm);
    repeat split.
Qed.

End Constructor.

(** ** What holds over the life of a record *)

Section Lifetime.

Context {H : Helpers}.

(** A property every call preserves holds after every sequence of
    calls. *)
Lemma run_invariant (P : t -> Prop) :
  (forall self c, P self -> P (step self c)) ->
  forall cs self, P self -> P (run cs self).
Proof.
  intros Hstep cs. induction cs as [|c cs IH]; intros self HP.
  - exact HP.
  - change (run (c :: cs) self) with (run cs (step self c)).
    apply IH, Hstep, HP.
Qed.

(** The case analysis behind every fact on one call. *)
Lemma step_cases (P : t -> t -> Prop) (self : t) :
  (forall w, identity_ok w self = false ->
     P self (mk (actor_id self) (address self) (actor_root_comp_ptr self)
               (my_coords self) (raw_name self) (name self) (coords self)
               (distance self) (screen_coords self) (crew_guid self)
               (text_str self) (LabelDefault.delete (text_render self))
               (Circle.delete (circle self)) (Sprite.delete (icon self))
               true)) ->
  (forall w my, identity_ok w self = true ->
     fresh_screen w my self = None ->
     P self (update w my self)) ->
  (forall w my sx sy, identity_ok w self = true ->
     fresh_screen w my self = Some (sx, sy) ->
     P self (update w my self)) ->
  P self (_delete self) ->
  forall c, P self (step self c).
Proof.
  intros Hm Hoff Hon Hdel [w my|]; cbn [step]; [|exact Hdel].
  destruct (identity_ok w self) eqn:Hid.
  - destruct (fresh_screen w my self) as [[sx sy]|] eqn:Hs.
    + exact (Hon w my sx sy Hid Hs).
    + exact (Hoff w my Hid Hs).
  - rewrite (update_mismatch_eq w my self Hid). exact (Hm w Hid).
Qed.

(** X5. No sequence of [update] and [_delete] calls changes the identity,
    the address, the position handle, the raw name, the name or the crew
    identifier of a record, nor the image of its icon, the radius of its
    circle or the batch of any of its three objects. *)
Theorem run_keeps_static (cs : list call) (self : t) :
  let self' := run cs self in
  (actor_id self', address self', actor_root_comp_ptr self')
  = (actor_id self, address self, actor_root_comp_ptr self) /\
  (raw_name self', name self', crew_guid self')
  = (raw_name self, name self, crew_guid self) /\
  (Sprite.img (icon self'), Circle.radius (circle self'))
  = (Sprite.img (icon self), Circle.radius (circle self)) /\
  (LabelDefault.batch (text_render self'), Circle.batch (circle self'),
   Sprite.batch (icon self'))
  = (LabelDefault.batch (text_render self), Circle.batch (circle self),
     Sprite.batch (icon self)).
Proof.
  cbv zeta.
  apply (run_invariant (fun s =>
    (actor_id s, address s, actor_root_comp_ptr s)
    = (actor_id self, address self, actor_root_comp_ptr self) /\
    (raw_name s, name s, crew_guid s)
    = (raw_name self, name self, crew_guid self) /\
    (Sprite.img (icon s), Circle.radius (circle s))
    = (Sprite.img (icon self), Circle.radius (circle self)) /\
    (LabelDefault.batch (text_render s), Circle.batch (circle s),
     Sprite.batch (icon s))
    = (LabelDefault.batch (text_render self), Circle.batch (circle self),
       Sprite.batch (icon self)))); [|repeat split].
  intros s c HP.
  apply (step_cases (fun s s' =>
    (actor_id s', address s', actor_root_comp_ptr s')
    = (actor_id self, address self, actor_root_comp_ptr self) /\
    (raw_name s', name s', crew_guid s')
    = (raw_name self, name self, crew_guid self) /\
    (Sprite.img (icon s'), Circle.radius (circle s'))
    = (Sprite.img (icon self), Circle.radius (circle self)) /\
    (LabelDefault.batch (text_render s'), Circle.batch (circle s'),
     Sprite.batch (icon s'))
    = (LabelDefault.batch (text_render self), Circle.batch (circle self),
       Sprite.batch (icon self)))).
  - intros w _. exact HP.
  - intros w my Hid Hs. rewrite (update_off_screen_eq w my s Hid Hs).
    exact HP.
  - intros w my sx sy Hid Hs.
    rewrite (update_on_screen_eq w my s sx sy Hid Hs). exact HP.
  - exact HP.
Qed.

(** X6. After any sequence of calls [to_delete] is set exactly when it
    was set before or one of the [update] calls failed the identity
    comparison: no call clears it, and [_delete] does not set it. *)
Theorem to_delete_of_run (cs : list call) (self : t) :
  to_delete (run cs self) = to_delete self || existsb (mismatches self) cs.
Proof.
  revert self. induction cs as [|c cs IH]; intro self.
  - cbn. rewrite orb_false_r. reflexivity.
  - change (run (c :: cs) self) with (run cs (step self c)).
    rewrite IH. cbn [existsb].
    assert (E : existsb (mismatches (step self c)) cs
                = existsb (mismatches self) cs).
    { destruct (step_keeps_identity self c) as [Ha Hb].
      clear IH. induction cs as [|c' cs IHcs]; [reflexivity|].
      cbn [existsb]. rewrite IHcs. f_equal.
      destruct c' as [w my|]; [|reflexivity].
      cbn [mismatches]. unfold identity_ok. rewrite Ha, Hb. reflexivity. }
    rewrite E, orb_assoc. f_equal.
    destruct c as [w my|]; cbn [step mismatches].
    + destruct (identity_ok w self) eqn:Hid; cbn [negb].
      * rewrite orb_false_r.
        destruct (fresh_screen w my self) as [[sx sy]|] eqn:Hs.
        -- rewrite (update_on_screen_eq w my self sx sy Hid Hs). reflexivity.
        -- rewrite (update_off_screen_eq w my self Hid Hs). reflexivity.
      * rewrite (update_mismatch_eq w my self Hid), orb_true_r. reflexivity.
    + rewrite orb_false_r. reflexivity.
Qed.

(** X7. From its construction on and after any sequence of calls, the
    text of the label is the stored text, and the stored text is the one
    built from the name and the stored distance. *)
Theorem label_text_of_run (w : World) (a adr : Z) (raw : string)
    (my : Coords) (self : t) (cs : list call) :
  init w a adr raw my = Some self ->
  let self' := run cs self in
  LabelDefault.text (text_render self') = text_str self' /\
  text_str self' = name self' ++ " - " ++ format (distance self') ++ "m".
Proof.
  intros Hi. cbv zeta.
  apply (run_invariant (fun s =>
    LabelDefault.text (text_render s) = text_str s /\
    text_str s = name s ++ " - " ++ format (distance s) ++ "m")).
  - intros s c HP.
    apply (step_cases (fun s s' =>
      LabelDefault.text (text_render s') = text_str s' /\
      text_str s' = name s' ++ " - " ++ format (distance s') ++ "m")).
    + intros w' _. exact HP.
    + intros w' my' Hid Hs. rewrite (update_off_screen_eq w' my' s Hid Hs).
      exact HP.
    + intros w' my' sx sy Hid Hs.
      rewrite (update_on_screen_eq w' my' s sx sy Hid Hs). split; reflexivity.
    + exact HP.
  - destruct (init_some _ _ _ _ _ _ Hi) as (entry & nm & _ & _ & E).
    cbv zeta in E. subst self. unfold _build_text_render.
    destruct (object_to_screen my _); split; reflexivity.
Qed.

(** X8. From its construction on and after any sequence of calls, the
    stored screen coordinates are the projection of the stored world
    coordinates for the stored viewer coordinates. *)
Theorem screen_coords_of_run (w : World) (a adr : Z) (raw : string)
    (my : Coords) (self : t) (cs : list call) :
  init w a adr raw my = Some self ->
  let self' := run cs self in
  screen_coords self' = object_to_screen (my_coords self') (coords self').
Proof.
  intros Hi. cbv zeta.
  apply (run_invariant (fun s =>
    screen_coords s = object_to_screen (my_coords s) (coords s))).
  - intros s c HP.
    apply (step_cases (fun s s' =>
      screen_coords s' = object_to_screen (my_coords s') (coords s'))).
    + intros w' _. exact HP.
    + intros w' my' Hid Hs. rewrite (update_off_screen_eq w' my' s Hid Hs).
      symmetry. exact Hs.
    + intros w' my' sx sy Hid Hs.
      rewrite (update_on_screen_eq w' my' s sx sy Hid Hs).
      symmetry. exact Hs.
    + exact HP.
  - destruct (init_some _ _ _ _ _ _ Hi) as (entry & nm & _ & _ & E).
    cbv zeta in E. subst self. reflexivity.
Qed.

(** X9. From its construction on and after any sequence of calls, also
    after a failed identity comparison and after [_delete], the label,
    the circle and the icon of a record have the same visibility. *)
Theorem visibility_of_run (w : World) (a adr : Z) (raw : string)
    (my : Coords) (self : t) (cs : list call) :
  init w a adr raw my = Some self ->
  let self' := run cs self in
  LabelDefault.visible (text_render self') = Circle.visible (circle self') /\
  Circle.visible (circle self') = Sprite.visible (icon self').
Proof.
  intros Hi. cbv zeta.
  apply (run_invariant (fun s =>
    LabelDefault.visible (text_render s) = Circle.visible (circle s) /\
    Circle.visible (circle s) = Sprite.visible (icon s))).
  - intros s c HP.
    apply (step_cases (fun s s' =>
      LabelDefault.visible (text_render s') = Circle.visible (circle s') /\
      Circle.visible (circle s') = Sprite.visible (icon s'))).
    + intros w' _. exact HP.
    + intros w' my' Hid Hs. rewrite (update_off_screen_eq w' my' s Hid Hs).
      split; reflexivity.
    + intros w' my' sx sy Hid Hs.
      rewrite (update_on_screen_eq w' my' s sx sy Hid Hs). split; reflexivity.
    + exact HP.
  - destruct (init_some _ _ _ _ _ _ Hi) as (entry & nm & _ & _ & E).
    cbv zeta in E. subst self.
    unfold _build_text_render, _build_circle_render, _build_icon_render.
    destruct (object_to_screen my _); split; reflexivity.
Qed.

End Lifetime.

(** ** How calls compose *)

Section Composition.

Context {H : Helpers}.

(** X10. For an int distance other than 1750, exactly one record of a
    pair on the screen ends visible: the one named with "Near" below
    1750, the other one above. *)
Theorem pair_switch_int (w : World) (my : Coords) (near far : t) (z : Z) :
  Py.contains "Near" (name near) = true ->
  Py.contains "Near" (name far) = false ->
  on_screen_at w my near (Py.Int z) ->
  on_screen_at w my far (Py.Int z) ->
  z <> 1750 ->
  if z <? 1750
  then all_visible (update w my near) /\ all_invisible (update w my far)
  else all_invisible (update w my near) /\ all_visible (update w my far).
Proof.
  intros Hn Hf On Of Hz.
  pose proof (update_on_screen_shown w my near _ On) as A.
  pose proof (update_on_screen_shown w my far _ Of) as B.
  cbv zeta in A, B. rewrite shown_int, Hn in A. rewrite shown_int, Hf in B.
  unfold all_visible, all_invisible.
  destruct (Z.ltb_spec z 1750).
  - replace (z <=? 1750) with true in A by (symmetry; apply Z.leb_le; lia).
    replace (1750 <=? z) with false in B by (symmetry; apply Z.leb_gt; lia).
    tauto.
  - replace (z <=? 1750) with false in A by (symmetry; apply Z.leb_gt; lia).
    replace (1750 <=? z) with true in B by (symmetry; apply Z.leb_le; lia).
    tauto.
Qed.

(** X11. An [update] that passes the identity comparison is idempotent:
    repeated at once in the same world for the same viewer, it returns the
    record it was given, every attribute included. *)
Theorem update_idempotent (w : World) (my : Coords) (self : t) :
  identity_ok w self = true ->
  update w my (update w my self) = update w my self.
Proof.
  intros Hid.
  destruct (update_keeps_identity w my self) as (Ka & Kb & Kc & Kn & Kg).
  set (once := update w my self) in *.
  assert (Hid1 : identity_ok w once = true)
    by (unfold identity_ok; rewrite Ka, Kb; exact Hid).
  assert (Hs1 : fresh_screen w my once = fresh_screen w my self)
    by (unfold fresh_screen, fresh_coords; rewrite Kc; reflexivity).
  assert (Hd1 : fresh_distance w my once = fresh_distance w my self)
    by (unfold fresh_distance, fresh_coords; rewrite Kc; reflexivity).
  assert (Hc1 : fresh_coords w once = fresh_coords w self)
    by (unfold fresh_coords; rewrite Kc; reflexivity).
  destruct (fresh_screen w my self) as [[sx sy]|] eqn:Hs.
  - rewrite (update_on_screen_eq w my once sx sy Hid1 Hs1), Hd1, Hc1, Kn, Kg.
    unfold once. rewrite (update_on_screen_eq w my self sx sy Hid Hs).
    cbn. destruct (tracker w (crew_guid self)); reflexivity.
  - rewrite (update_off_screen_eq w my once Hid1 Hs1), Hc1.
    unfold once. rewrite (update_off_screen_eq w my self Hid Hs).
    reflexivity.
Qed.

(** X12. [update] neither reads [to_delete] nor the [delete()] calls its
    objects have received: on a record already flagged it does what it
    does on the unflagged one, and on a record already disposed of it
    writes the same attributes as on the live one. *)
Theorem update_ignores_disposal (w : World) (my : Coords) (self : t)
    (b : bool) :
  update w my (set_to_delete self b)
  = set_to_delete (update w my self) (b || negb (identity_ok w self)) /\
  update w my (_delete self) = _delete (update w my self).
Proof.
  destruct self as [aid adr ptr my0 raw nm co d0 sc0 guid txt0 lbl cir ico del].
  destruct lbl, cir, ico.
  assignments.
  destruct (_get_actor_id w adr =? aid); cbn [negb]; assignments.
  - rewrite orb_false_r.
    destruct (object_to_screen my (_coord_builder w ptr coord_offset))
      as [[sx sy]|]; assignments; [|split; reflexivity].
    destruct (Py.contains "Near" nm && Py.gt _ _);
      [| destruct (negb (Py.contains "Near" nm) && Py.lt _ _)];
      destruct (tracker w guid); split; reflexivity.
  - rewrite orb_true_r. split; reflexivity.
Qed.

End Composition.

(** ** The claims on the scene *)

#[local] Existing Instance Demo.helpers.

(** C1, on the code.  With the sloop at exactly 1750 from the viewer and
    projected on the screen, [update] leaves the near record and the far
    record both visible: at equality neither test of the switch holds. *)
Theorem both_variants_visible_at_1750 :
  let w := Demo.world (Py.Int 1750) in
  let my := Demo.viewer (Py.Int 0) in
  on_screen_at w my Demo.near (Py.Int 1750) /\
  on_screen_at w my Demo.far (Py.Int 1750) /\
  all_visible (update w my Demo.near) /\
  all_visible (update w my Demo.far).
Proof.
  cbv zeta. unfold on_screen_at, all_visible.
  repeat split; try reflexivity; discriminate.
Qed.

Lemma update_identity_mismatch_witness :
  let w := Demo.reused (Py.Int 1200) in
  let my := Demo.viewer (Py.Int 0) in
  _get_actor_id w (address Demo.near) <> actor_id Demo.near /\
  to_delete (update w my Demo.near) = true /\
  deletions (update w my Demo.near) = (1%nat, 1%nat, 1%nat) /\
  update w my Demo.near =
    mk 11 4096 4160 (my_coords Demo.near) (raw_name Demo.near)
       (name Demo.near) (coords Demo.near) (distance Demo.near)
       (screen_coords Demo.near) (crew_guid Demo.near) (text_str Demo.near)
       (LabelDefault.delete (text_render Demo.near))
       (Circle.delete (circle Demo.near)) (Sprite.delete (icon Demo.near))
       true.
Proof.
  cbv zeta.
  assert (Hne : _get_actor_id (Demo.reused (Py.Int 1200)) (address Demo.near)
                <> actor_id Demo.near) by (simpl; lia).
  split; [exact Hne|].
  exact (update_identity_mismatch (Demo.reused (Py.Int 1200))
           (Demo.viewer (Py.Int 0)) Demo.near Hne).
Defined.

Lemma update_visibility_uniform_witness :
  let w := Demo.world (Py.Int 1200) in
  let my := Demo.viewer (Py.Int 0) in
  _get_actor_id w (address Demo.near) = actor_id Demo.near /\
  (LabelDefault.visible (text_render (update w my Demo.near))
   = Circle.visible (circle (update w my Demo.near)) /\
   Circle.visible (circle (update w my Demo.near))
   = Sprite.visible (icon (update w my Demo.near))) /\
  (all_invisible (update w my Demo.near) \/
   (all_visible (update w my Demo.near) /\
    exists sx sy,
      fresh_screen w my Demo.near = Some (sx, sy) /\
      screen_coords (update w my Demo.near) = Some (sx, sy) /\
      positions (update w my Demo.near) = positions_for sx sy)).
Proof.
  cbv zeta. split; [reflexivity|].
  apply (update_visibility_uniform (Demo.world (Py.Int 1200))
           (Demo.viewer (Py.Int 0)) Demo.near).
  reflexivity.
Defined.

Lemma distance_switch_around_1750_witness :
  let w1 := Demo.world (Py.Float 1749.999) in
  let w2 := Demo.world (Py.Float 1750.001) in
  let my := Demo.viewer (Py.Int 0) in
  (Py.contains "Near" (name Demo.near) = true /\
   Py.contains "Near" (name Demo.far) = false /\
   on_screen_at w1 my Demo.near (Py.Float 1749.999) /\
   on_screen_at w1 my Demo.far (Py.Float 1749.999) /\
   on_screen_at w2 my Demo.near (Py.Float 1750.001) /\
   on_screen_at w2 my Demo.far (Py.Float 1750.001)) /\
  (all_visible (update w1 my Demo.near) /\
   all_invisible (update w1 my Demo.far)) /\
  (all_visible (update w2 my Demo.far) /\
   all_invisible (update w2 my Demo.near)).
Proof.
  cbv zeta.
  assert (S1 : forall s, s = Demo.near \/ s = Demo.far ->
            on_screen_at (Demo.world (Py.Float 1749.999))
              (Demo.viewer (Py.Int 0)) s (Py.Float 1749.999)).
  { intros s [-> | ->]; unfold on_screen_at;
      repeat split; try reflexivity; discriminate. }
  assert (S2 : forall s, s = Demo.near \/ s = Demo.far ->
            on_screen_at (Demo.world (Py.Float 1750.001))
              (Demo.viewer (Py.Int 0)) s (Py.Float 1750.001)).
  { intros s [-> | ->]; unfold on_screen_at;
      repeat split; try reflexivity; discriminate. }
  split.
  - repeat split; try reflexivity;
      first [apply S1 | apply S2]; auto.
  - apply (distance_switch_around_1750
             (Demo.world (Py.Float 1749.999)) (Demo.world (Py.Float 1750.001))
             (Demo.viewer (Py.Int 0)) (Demo.viewer (Py.Int 0))
             Demo.near Demo.far);
      first [reflexivity | apply S1; auto | apply S2; auto].
Defined.

Lemma sloop_near_at_1200_witness :
  let w := Demo.world (Py.Int 1200) in
  let my := Demo.viewer (Py.Int 0) in
  (name Demo.near = "Sloop (Near)" /\
   identity_ok w Demo.near = true /\
   fresh_distance w my Demo.near = Py.Int 1200 /\
   fresh_screen w my Demo.near = Some (Py.Int 500, Py.Int 400) /\
   Py.to_float (Py.Int 500) = 500%float /\
   Py.to_float (Py.Int 400) = 400%float) /\
  Circle.visible (circle (update w my Demo.near)) = true /\
  Circle.x (circle (update w my Demo.near)) = Py.Float 487.5 /\
  Circle.y (circle (update w my Demo.near)) = Py.Float 387.5 /\
  LabelDefault.text (text_render (update w my Demo.near))
  = "Sloop (Near) - 1200m".
Proof.
  cbv zeta. split.
  - repeat split; reflexivity.
  - apply (sloop_near_at_1200 (Demo.world (Py.Int 1200))
             (Demo.viewer (Py.Int 0)) Demo.near (Py.Int 500) (Py.Int 400));
      reflexivity.
Defined.

Lemma update_off_screen_witness :
  let w := Demo.world (Py.Int 1200) in
  let my := Demo.viewer (Py.Int 1500) in
  (identity_ok w Demo.near = true /\ fresh_screen w my Demo.near = None) /\
  all_invisible (update w my Demo.near) /\
  positions (update w my Demo.near) = positions Demo.near.
Proof.
  cbv zeta. split.
  - split; reflexivity.
  - apply (update_off_screen (Demo.world (Py.Int 1200))
             (Demo.viewer (Py.Int 1500)) Demo.near); reflexivity.
Defined.

(** C7, against the claim as written.  The viewer has moved past the
    sloop: the record passes the identity comparison, the distance
    computed by the call is 300, and the record still stores the 1200 of
    its construction. *)
Lemma off_screen_update_keeps_stale_distance :
  let w := Demo.world (Py.Int 1200) in
  let my := Demo.viewer (Py.Int 1500) in
  identity_ok w Demo.near = true /\
  fresh_distance w my Demo.near = Py.Int 300 /\
  distance (update w my Demo.near) = Py.Int 1200 /\
  distance (update w my Demo.near) <> fresh_distance w my Demo.near.
Proof.
  cbv zeta. repeat split; try reflexivity. discriminate.
Qed.

Lemma update_coords_and_distance_witness :
  let w := Demo.world (Py.Int 1200) in
  let my := Demo.viewer (Py.Int 1500) in
  identity_ok w Demo.near = true /\
  coords (update w my Demo.near) = fresh_coords w Demo.near /\
  distance (update w my Demo.near) =
    match fresh_screen w my Demo.near with
    | Some _ => calculate_distance (fresh_coords w Demo.near) my
    | None => distance Demo.near
    end.
Proof.
  cbv zeta. split; [reflexivity|].
  apply (update_coords_and_distance (Demo.world (Py.Int 1200))
           (Demo.viewer (Py.Int 1500)) Demo.near).
  reflexivity.
Defined.

(** C8, against the claim as written.  Once the address of the near record
    is reused, a first [update] sends one [delete()] to each pyglet
    object, and a second [update], or a [_delete], sends each a second
    one. *)
Lemma visuals_deleted_twice :
  let w := Demo.reused (Py.Int 1200) in
  let my := Demo.viewer (Py.Int 0) in
  deletions (run [Update w my] Demo.near) = (1%nat, 1%nat, 1%nat) /\
  deletions (run [Update w my; Update w my] Demo.near)
  = (2%nat, 2%nat, 2%nat) /\
  deletions (run [Update w my; Dispose] Demo.near) = (2%nat, 2%nat, 2%nat).
Proof.
  cbv zeta. repeat split.
Qed.

Lemma update_hidden_still_written_witness :
  let w := Demo.world (Py.Int 1800) in
  let my := Demo.viewer (Py.Int 0) in
  (identity_ok w Demo.near = true /\
   fresh_screen w my Demo.near = Some (Py.Int 500, Py.Int 400) /\
   Py.contains "Near" (name Demo.near) = true /\
   Py.gt (fresh_distance w my Demo.near) (Py.Int 1750) = true) /\
  all_invisible (update w my Demo.near) /\
  positions (update w my Demo.near)
  = positions_for (Py.Int 500) (Py.Int 400) /\
  distance (update w my Demo.near) = Py.Int 1800 /\
  text_str (update w my Demo.near) = "Sloop (Near) - 1800m" /\
  LabelDefault.text (text_render (update w my Demo.near))
  = text_str (update w my Demo.near) /\
  Circle.color (circle (update w my Demo.near)) = [255; 0; 0].
Proof.
  cbv zeta. split.
  - repeat split; reflexivity.
  - refine (update_hidden_still_written (Demo.world (Py.Int 1800))
              (Demo.viewer (Py.Int 0)) Demo.near (Py.Int 500) (Py.Int 400)
              _ _ _);
      [reflexivity | reflexivity | left; split; reflexivity].
Defined.

(** ** The constructor and the life of a record on the scene *)

Lemma init_fresh_witness :
  let w := Demo.world (Py.Int 1200) in
  let my := Demo.viewer (Py.Int 1500) in
  init w 11 4096 "BP_SmallShipTemplate_C" my = Some Demo.near_behind /\
  to_delete Demo.near_behind = false /\
  all_visible Demo.near_behind /\
  deletions Demo.near_behind = (0%nat, 0%nat, 0%nat) /\
  Circle.color (circle Demo.near_behind) = [255; 255; 255] /\
  Circle.radius (circle Demo.near_behind) = Py.Int 25 /\
  (screen_coords Demo.near_behind = None ->
   positions Demo.near_behind = (origin, origin, origin)).
Proof.
  cbv zeta.
  assert (Hi : init (Demo.world (Py.Int 1200)) 11 4096
                 "BP_SmallShipTemplate_C" (Demo.viewer (Py.Int 1500))
               = Some Demo.near_behind) by (vm_compute; reflexivity).
  split; [exact Hi|].
  exact (init_fresh (Demo.world (Py.Int 1200)) 11 4096
           "BP_SmallShipTemplate_C" (Demo.viewer (Py.Int 1500))
           Demo.near_behind Hi).
Defined.


Lemma first_update_moves_icon_witness :
  let w := Demo.world (Py.Int 1200) in
  let my := Demo.viewer (Py.Int 0) in
  (init w 11 4096 "BP_SmallShipTemplate_C" my = Some Demo.near /\
   _get_actor_id w 4096 = 11 /\
   screen_coords Demo.near = Some (Py.Int 500, Py.Int 400)) /\
  fst (fst (positions (update w my Demo.near)))
  = (Py.Float 522.5, Py.Float 382.5) /\
  snd (fst (positions (update w my Demo.near)))
  = (Py.Float 487.5, Py.Float 387.5) /\
  snd (positions Demo.near) = (Py.Int 475, Py.Int 375) /\
  snd (positions (update w my Demo.near))
  = (Py.Float 463.75, Py.Float 363.75).
Proof.
  cbv zeta.
  assert (Hi : init (Demo.world (Py.Int 1200)) 11 4096
                 "BP_SmallShipTemplate_C" (Demo.viewer (Py.Int 0))
               = Some Demo.near) by (vm_compute; reflexivity).
  split; [repeat split; try reflexivity; exact Hi|].
  refine (first_update_moves_icon (Demo.world (Py.Int 1200)) 11 4096
            "BP_SmallShipTemplate_C" (Demo.viewer (Py.Int 0)) Demo.near
            (Py.Int 500) (Py.Int 400) Hi _ _); reflexivity.
Defined.

Lemma label_text_of_run_witness :
  init (Demo.world (Py.Int 1200)) 11 4096 "BP_SmallShipTemplate_C"
       (Demo.viewer (Py.Int 0)) = Some Demo.near /\
  LabelDefault.text (text_render (run Demo.frames Demo.near))
  = text_str (run Demo.frames Demo.near) /\
  text_str (run Demo.frames Demo.near) = "Sloop (Near) - 1800m" /\
  distance (run Demo.frames Demo.near) = Py.Int 1800.
Proof.
  assert (Hi : init (Demo.world (Py.Int 1200)) 11 4096
                 "BP_SmallShipTemplate_C" (Demo.viewer (Py.Int 0))
               = Some Demo.near) by (vm_compute; reflexivity).
  split; [exact Hi|].
  pose proof (label_text_of_run (Demo.world (Py.Int 1200)) 11 4096
                "BP_SmallShipTemplate_C" (Demo.viewer (Py.Int 0)) Demo.near
                Demo.frames Hi) as [L T].
  split; [exact L|]. split; [exact T | reflexivity].
Defined.

Lemma screen_coords_of_run_witness :
  init (Demo.world (Py.Int 1200)) 11 4096 "BP_SmallShipTemplate_C"
       (Demo.viewer (Py.Int 0)) = Some Demo.near /\
  screen_coords (run Demo.frames Demo.near)
  = object_to_screen (my_coords (run Demo.frames Demo.near))
                     (coords (run Demo.frames Demo.near)).
Proof.
  assert (Hi : init (Demo.world (Py.Int 1200)) 11 4096
                 "BP_SmallShipTemplate_C" (Demo.viewer (Py.Int 0))
               = Some Demo.near) by (vm_compute; reflexivity).
  split; [exact Hi|].
  exact (screen_coords_of_run (Demo.world (Py.Int 1200)) 11 4096
           "BP_SmallShipTemplate_C" (Demo.viewer (Py.Int 0)) Demo.near
           Demo.frames Hi).
Defined.

Lemma visibility_of_run_witness :
  init (Demo.world (Py.Int 1200)) 11 4096 "BP_SmallShipTemplate_C"
       (Demo.viewer (Py.Int 0)) = Some Demo.near /\
  LabelDefault.visible (text_render (run Demo.frames Demo.near))
  = Circle.visible (circle (run Demo.frames Demo.near)) /\
  Circle.visible (circle (run Demo.frames Demo.near))
  = Sprite.visible (icon (run Demo.frames Demo.near)).
Proof.
  assert (Hi : init (Demo.world (Py.Int 1200)) 11 4096
                 "BP_SmallShipTemplate_C" (Demo.viewer (Py.Int 0))
               = Some Demo.near) by (vm_compute; reflexivity).
  split; [exact Hi|].
  exact (visibility_of_run (Demo.world (Py.Int 1200)) 11 4096
           "BP_SmallShipTemplate_C" (Demo.viewer (Py.Int 0)) Demo.near
           Demo.frames Hi).
Defined.

Lemma pair_switch_int_witness :
  let w := Demo.world (Py.Int 1751) in
  let my := Demo.viewer (Py.Int 0) in
  (Py.contains "Near" (name Demo.near) = true /\
   Py.contains "Near" (name Demo.far) = false /\
   on_screen_at w my Demo.near (Py.Int 1751) /\
   on_screen_at w my Demo.far (Py.Int 1751) /\
   1751 <> 1750) /\
  all_invisible (update w my Demo.near) /\ all_visible (update w my Demo.far).
Proof.
  cbv zeta.
  assert (On : on_screen_at (Demo.world (Py.Int 1751))
                 (Demo.viewer (Py.Int 0)) Demo.near (Py.Int 1751))
    by (unfold on_screen_at; repeat split; try reflexivity; discriminate).
  assert (Of : on_screen_at (Demo.world (Py.Int 1751))
                 (Demo.viewer (Py.Int 0)) Demo.far (Py.Int 1751))
    by (unfold on_screen_at; repeat split; try reflexivity; discriminate).
  assert (Hz : 1751 <> 1750) by lia.
  split.
  { split; [reflexivity|]. split; [reflexivity|].
    split; [exact On|]. split; [exact Of | exact Hz]. }
  exact (pair_switch_int (Demo.world (Py.Int 1751)) (Demo.viewer (Py.Int 0))
           Demo.near Demo.far 1751 eq_refl eq_refl On Of Hz).
Defined.

Lemma update_idempotent_witness :
  let w := Demo.world (Py.Int 1800) in
  let my := Demo.viewer (Py.Int 0) in
  identity_ok w Demo.near = true /\
  update w my (update w my Demo.near) = update w my Demo.near.
Proof.
  cbv zeta. split; [reflexivity|].
  exact (update_idempotent (Demo.world (Py.Int 1800))
           (Demo.viewer (Py.Int 0)) Demo.near eq_refl).
Defined.
